(** * Python bindings of the cover-tree library (pygoko / pygrandma)

    Shallow embedding of [src/pygoko/src/tree.rs] and
    [src/pygrandma/src/tree.rs].  The bindings drive a core library
    (point cloud, builder, writer, reader) whose code is not part of the
    sources at hand; those parts are modelled from the specification and
    marked as such.  [f32] values are modelled by rationals [Q], squared
    L2 distances by [Z], [usize] by [nat] and [i32] by [Z]. *)

From Stdlib Require Import List ZArith QArith String Bool Arith Lia Sorted.
Import ListNotations.
Open Scope Z_scope.

(** ** Results of the core and of the bindings *)

(** Rust's [Result]. *)
Inductive result (A E : Type) : Type :=
| Ok (a : A)
| Err (e : E).
Arguments Ok {A E} a.
Arguments Err {A E} e.

(** Outcome of a Python-visible method call: a returned value, a Python
    exception raised through [PyResult::Err], or a Rust panic. *)
Inductive py (A : Type) : Type :=
| POk (a : A)
| PErr (e : string)
| PPanic (msg : string).
Arguments POk {A} a.
Arguments PErr {A} e.
Arguments PPanic {A} msg.

(** [Option::unwrap] and [Result::unwrap]. *)
Definition unwrap_opt {A} (o : option A) : py A :=
  match o with
  | Some a => POk a
  | None => PPanic "called `Option::unwrap()` on a `None` value"%string
  end.

Definition unwrap_res {A E} (r : result A E) : py A :=
  match r with
  | Ok a => POk a
  | Err _ => PPanic "called `Result::unwrap()` on an `Err` value"%string
  end.

Definition py_bind {A B} (m : py A) (k : A -> py B) : py B :=
  match m with
  | POk a => k a
  | PErr e => PErr e
  | PPanic msg => PPanic msg
  end.

Notation "x <- m ;; k" := (py_bind m (fun x => k))
  (at level 61, m at next level, right associativity).

(** Error conditions of the core library. *)
Inductive CoreError :=
| NodeNotFound
| ScaleNotPresent
| ConfigurationError
| DataError
| DimensionMismatch
| PointIndexOutOfRange.

(** ** Point cloud *)

(** [DefaultLabeledCloud<L2>]: flat row-major storage, dimension, labels. *)
Record Cloud := mkCloud {
  pc_data : list Z;
  pc_dim : nat;
  pc_labels : list nat
}.

(** Modelled from the spec: [DefaultLabeledCloud::new_simple] (pointcloud
    crate) stores the data, the dimension and the label array as given. *)
Definition new_simple (data : list Z) (dim : nat) (labels : list nat) : Cloud :=
  mkCloud data dim labels.

(** Modelled from the spec: the number of points of the cloud. *)
Definition cloud_len (pc : Cloud) : nat :=
  (List.length (pc_data pc) / pc_dim pc)%nat.

(** Modelled from the spec: [point_cloud.point(i)], random access by index,
    failing outside [0 .. len). *)
Definition cloud_point (pc : Cloud) (i : nat) : result (list Z) CoreError :=
  if (i <? cloud_len pc)%nat
  then Ok (firstn (pc_dim pc) (skipn (i * pc_dim pc) (pc_data pc)))
  else Err PointIndexOutOfRange.

(** Modelled from the spec: [point.dense_iter(dim)] of a dense point
    iterates over its coordinates. *)
Definition dense_iter (point : list Z) (dim : nat) : list Z := point.

(** Modelled from the spec: the [L2] metric capability, through its square
    (same order as the distance itself). *)
Fixpoint sq_l2 (a b : list Z) : Z :=
  match a, b with
  | x :: a', y :: b' => (x - y) * (x - y) + sq_l2 a' b'
  | _, _ => 0
  end.

(** [ndarray::Array1::from_shape_vec((dim,), v)]. *)
Definition from_shape_vec (dim : nat) (v : list Z) : result (list Z) string :=
  if (List.length v =? dim)%nat then Ok v else Err "ShapeError/IncompatibleShape"%string.

(** ** Builder, writer and reader of the core *)

(** [CoverTreeBuilder]: the construction parameters. *)
Record Builder := mkBuilder {
  b_scale_base : Q;
  b_leaf_cutoff : nat;
  b_min_res_index : Z;
  b_use_singletons : bool
}.

(** Modelled from the spec: the builder's setters store the parameter. *)
Definition builder_set_scale_base (x : Q) (b : Builder) : Builder :=
  mkBuilder x (b_leaf_cutoff b) (b_min_res_index b) (b_use_singletons b).
Definition builder_set_leaf_cutoff (x : nat) (b : Builder) : Builder :=
  mkBuilder (b_scale_base b) x (b_min_res_index b) (b_use_singletons b).
Definition builder_set_min_res_index (x : Z) (b : Builder) : Builder :=
  mkBuilder (b_scale_base b) (b_leaf_cutoff b) x (b_use_singletons b).
Definition builder_set_use_singletons (x : bool) (b : Builder) : Builder :=
  mkBuilder (b_scale_base b) (b_leaf_cutoff b) (b_min_res_index b) x.

(** [NodeAddress]: (scale index, slot index). *)
Definition NodeAddress : Type := (Z * nat)%type.

Definition address_eqb (a b : NodeAddress) : bool :=
  Z.eqb (fst a) (fst b) && Nat.eqb (snd a) (snd b).

Record Node := mkNode {
  n_center : nat;                  (* index of the representative point *)
  n_children : list NodeAddress;
  n_singletons : list nat
}.

(** The tree parameters kept by writer and readers. *)
Record Params := mkParams {
  point_cloud : Cloud;
  scale_base : Q;
  leaf_cutoff : nat;
  min_res_index : Z;
  use_singletons : bool
}.

(** Node arena indexed by address, root address and scale range
    [start .. end). *)
Record Tree := mkTree {
  t_nodes : list (NodeAddress * Node);
  t_root : NodeAddress;
  t_scale_range : Z * Z
}.

(** The built-in plugins attached by the bindings. *)
Inductive PluginKind := DiagGaussian | Dirichlet.

(** Calls made on a writer, in order. *)
Inductive WriterEvent :=
| EvGenerateSummaries
| EvAddPlugin (k : PluginKind).

Record Writer := mkWriter {
  w_params : Params;
  w_tree : Tree;
  w_summaries : bool;
  w_plugins : list PluginKind;
  w_log : list WriterEvent
}.

Record Reader := mkReader {
  r_params : Params;
  r_tree : Tree;
  r_summaries : bool;
  r_plugins : list PluginKind
}.

(** Modelled from the spec: [CoverTreeBuilder::build] validates the
    configuration (scale base > 1, cutoff >= 1) and the data (non-empty,
    one label per point), then runs the construction algorithm, here the
    argument [construct]. *)
Definition build (construct : Params -> Tree) (b : Builder) (pc : Cloud)
  : result Writer CoreError :=
  if Qle_bool (b_scale_base b) 1 then Err ConfigurationError
  else if (b_leaf_cutoff b <? 1)%nat then Err ConfigurationError
  else if (cloud_len pc =? 0)%nat then Err DataError
  else if negb (List.length (pc_labels pc) =? cloud_len pc)%nat then Err DataError
  else
    let p := mkParams pc (b_scale_base b) (b_leaf_cutoff b)
                      (b_min_res_index b) (b_use_singletons b) in
    Ok (mkWriter p (construct p) false [] []).

(** Modelled from the spec: [Writer.generate_summaries()]. *)
Definition generate_summaries (w : Writer) : Writer :=
  mkWriter (w_params w) (w_tree w) true (w_plugins w)
           (w_log w ++ [EvGenerateSummaries]).

(** Modelled from the spec: [Writer.add_plugin::<K>(init)] attaches the
    plugin, and fails when the base summaries are missing. *)
Definition add_plugin (k : PluginKind) (w : Writer) : Writer * result unit CoreError :=
  let log := w_log w ++ [EvAddPlugin k] in
  if w_summaries w
  then (mkWriter (w_params w) (w_tree w) true (w_plugins w ++ [k]) log, Ok tt)
  else (mkWriter (w_params w) (w_tree w) false (w_plugins w) log, Err DataError).

(** Modelled from the spec: [Writer.reader()], a snapshot of the writer. *)
Definition writer_reader (w : Writer) : Reader :=
  mkReader (w_params w) (w_tree w) (w_summaries w) (w_plugins w).

(** [Reader.scale_range()]. *)
Definition scale_range (r : Reader) : Z * Z := t_scale_range (r_tree r).

Definition root_address (r : Reader) : NodeAddress := t_root (r_tree r).

Definition lookup_node (r : Reader) (a : NodeAddress) : option Node :=
  match find (fun an => address_eqb (fst an) a) (t_nodes (r_tree r)) with
  | Some (_, n) => Some n
  | None => None
  end.

(** Modelled from the spec: [Reader.get_node_and(address, f)]. *)
Definition get_node_and {A} (r : Reader) (a : NodeAddress) (f : Node -> A)
  : result A CoreError :=
  match lookup_node r a with
  | Some n => Ok (f n)
  | None => Err NodeNotFound
  end.

(** Modelled from the spec: [Reader.layer(scale_index)], failing with
    "scale not present" when no node has that scale. *)
Definition reader_layer (r : Reader) (si : Z) : result (list NodeAddress) CoreError :=
  match filter (fun a => Z.eqb (fst a) si) (map fst (t_nodes (r_tree r))) with
  | [] => Err ScaleNotPresent
  | l => Ok l
  end.

(** The coordinates of a point of the reader's cloud ([[]] if absent). *)
Definition reader_point (r : Reader) (i : nat) : list Z :=
  match cloud_point (point_cloud (r_params r)) i with
  | Ok p => p
  | Err _ => []
  end.

(** Candidate order of the KNN query: by distance, then by point index. *)
Definition cand_leb (a b : Z * nat) : bool :=
  (fst a <? fst b) || ((fst a =? fst b) && (snd a <=? snd b)%nat).

Fixpoint insert_cand (c : Z * nat) (l : list (Z * nat)) : list (Z * nat) :=
  match l with
  | [] => [c]
  | d :: l' => if cand_leb c d then c :: l else d :: insert_cand c l'
  end.

Fixpoint sort_cands (l : list (Z * nat)) : list (Z * nat) :=
  match l with
  | [] => []
  | c :: l' => insert_cand c (sort_cands l')
  end.

(** Modelled from the spec: [Reader.knn(point, k)], the k best
    (distance, point index) pairs in ascending distance, ties broken by
    ascending index; a query of the wrong dimension fails. *)
Definition knn_core (r : Reader) (q : list Z) (k : nat)
  : result (list (Z * nat)) CoreError :=
  let pc := point_cloud (r_params r) in
  if negb (List.length q =? pc_dim pc)%nat then Err DimensionMismatch
  else
    let cands := map (fun i => (sq_l2 q (reader_point r i), i)) (seq 0 (cloud_len pc)) in
    Ok (firstn k (sort_cands cands)).

(** Covering radius [base^scale], compared through squares. *)
Definition covers (r : Reader) (q : list Z) (a : NodeAddress) (n : Node) : bool :=
  let rad := Qpower (scale_base (r_params r)) (fst a) in
  Qle_bool (inject_Z (sq_l2 q (reader_point r (n_center n)))) (rad * rad).

(** Nearest covering child (the first one on ties). *)
Definition nearest_covering (r : Reader) (q : list Z) (children : list NodeAddress)
  : option (Z * NodeAddress) :=
  fold_left
    (fun best a =>
       match lookup_node r a with
       | Some n =>
           if covers r q a n then
             let d := sq_l2 q (reader_point r (n_center n)) in
             match best with
             | Some (d', _) => if d <? d' then Some (d, a) else best
             | None => Some (d, a)
             end
           else best
       | None => best
       end)
    children None.

Fixpoint descend (fuel : nat) (r : Reader) (q : list Z) (d : Z) (a : NodeAddress)
  : list (Z * NodeAddress) :=
  (d, a) ::
  match fuel with
  | O => []
  | S fuel' =>
      match lookup_node r a with
      | Some n =>
          match nearest_covering r q (n_children n) with
          | Some (d', c) => descend fuel' r q d' c
          | None => []
          end
      | None => []
      end
  end.

(** Modelled from the spec: [Reader.dry_insert(point)], the insertion path
    from the root, choosing at each scale the nearest covering child. *)
Definition dry_insert_core (r : Reader) (q : list Z)
  : result (list (Z * NodeAddress)) CoreError :=
  let pc := point_cloud (r_params r) in
  if negb (List.length q =? pc_dim pc)%nat then Err DimensionMismatch
  else
    match lookup_node r (root_address r) with
    | Some n =>
        Ok (descend (List.length (t_nodes (r_tree r))) r q
                    (sq_l2 q (reader_point r (n_center n))) (root_address r))
    | None => Err NodeNotFound
    end.

(** ** Host arrays and the objects handed to Python *)

(** [PyArray1<A>]: its elements and whether [as_slice()] succeeds
    (contiguous storage). *)
Record PyArray1 (A : Type) := mkPyArray1 {
  pa_data : list A;
  pa_contiguous : bool
}.
Arguments mkPyArray1 {A} pa_data pa_contiguous.
Arguments pa_data {A} p.
Arguments pa_contiguous {A} p.

(** [PyArray2<f32>]: row-major elements and [shape()]. *)
Record PyArray2 := mkPyArray2 {
  pa2_data : list Z;
  pa2_rows : nat;
  pa2_cols : nat;
  pa2_contiguous : bool
}.

Definition as_slice {A} (a : PyArray1 A) : result (list A) string :=
  if pa_contiguous a then Ok (pa_data a) else Err "NotContiguousError"%string.

Definition as_slice2 (a : PyArray2) : result (list Z) string :=
  if pa2_contiguous a then Ok (pa2_data a) else Err "NotContiguousError"%string.

(** [PyLayer] / [PyGrandLayer]. *)
Record PyLayer := mkPyLayer {
  layer_parameters : Params;
  layer_tree : Reader;
  layer_scale_index : Z
}.

(** [PyNode] / [PyGrandNode]. *)
Record PyNode := mkPyNode {
  node_parameters : Params;
  node_address : NodeAddress;
  node_tree : Reader
}.

(** [i32] subtraction as compiled in release mode (wrapping). *)
Definition wrap_i32 (z : Z) : Z := (z + 2 ^ 31) mod 2 ^ 32 - 2 ^ 31.

(** ** The [&self] methods, common to [CoverTree] and [PyGrandma]

    Both classes hold their reader in a field [reader : Option<Arc<Reader>>]
    and implement these methods with the same code; they are written once
    over that field. *)

Definition data_point (reader : option Reader) (point_index : nat)
  : py (option (list Z)) :=
  r <- unwrap_opt reader ;;
  let dim := pc_dim (point_cloud (r_params r)) in
  match cloud_point (point_cloud (r_params r)) point_index with
  | Err _ => POk None
  | Ok point =>
      py_point <- unwrap_res (from_shape_vec dim (dense_iter point dim)) ;;
      POk (Some py_point)
  end.

Definition top_scale (reader : option Reader) : option Z :=
  option_map (fun r => wrap_i32 (snd (scale_range r) - 1)) reader.

Definition bottom_scale (reader : option Reader) : option Z :=
  option_map (fun r => fst (scale_range r)) reader.

Definition layer (reader : option Reader) (scale_index : Z) : py PyLayer :=
  r <- unwrap_opt reader ;;
  POk (mkPyLayer (r_params r) r scale_index).

Definition node (reader : option Reader) (address : NodeAddress) : py PyNode :=
  r <- unwrap_opt reader ;;
  (* Check node exists *)
  _ <- unwrap_res (get_node_and r address (fun _ => true)) ;;
  POk (mkPyNode (r_params r) address r).

Definition root (reader : option Reader) : py PyNode :=
  r <- unwrap_opt reader ;;
  node reader (root_address r).

Definition knn (reader : option Reader) (point : PyArray1 Z) (k : nat)
  : py (list (Z * nat)) :=
  r <- unwrap_opt reader ;;
  q <- unwrap_res (as_slice point) ;;
  unwrap_res (knn_core r q k).

Definition dry_insert (reader : option Reader) (point : PyArray1 Z)
  : py (list (Z * NodeAddress)) :=
  r <- unwrap_opt reader ;;
  q <- unwrap_res (as_slice point) ;;
  unwrap_res (dry_insert_core r q).

(** The labels handed to the point cloud by [fit]: the given array, or
    [vec![0; len]]. *)
Definition fit_labels (len : nat) (labels : option (PyArray1 nat)) : py (list nat) :=
  match labels with
  | Some l => unwrap_res (as_slice l)
  | None => POk (repeat 0%nat len)
  end.

(** What the bindings take from outside the sources: the construction
    algorithm, [CoverTreeBuilder::new()] and the YAML loaders. *)
Record Env := mkEnv {
  construct : Params -> Tree;
  builder_new : Builder;
  yaml_cloud : string -> result Cloud CoreError;
  yaml_builder : string -> Builder
}.

(** Values returned by the methods. *)
Inductive Value :=
| VUnit
| VOptZ (o : option Z)
| VPoint (o : option (list Z))
| VLayer (l : PyLayer)
| VNode (n : PyNode)
| VKnn (l : list (Z * nat))
| VPath (l : list (Z * NodeAddress)).

Definition py_map {A B} (f : A -> B) (m : py A) : py B :=
  x <- m ;; POk (f x).

(** ** [pygoko]: the [CoverTree] class *)
Module Goko.

Record CoverTree := mkCoverTree {
  builder : option Builder;
  temp_point_cloud : option Cloud;
  writer : option Writer;
  reader : option Reader;
  metric : string
}.

Definition with_builder (b : option Builder) (s : CoverTree) : CoverTree :=
  mkCoverTree b (temp_point_cloud s) (writer s) (reader s) (metric s).
Definition with_temp (t : option Cloud) (s : CoverTree) : CoverTree :=
  mkCoverTree (builder s) t (writer s) (reader s) (metric s).
Definition with_writer_reader (w : option Writer) (r : option Reader)
  (s : CoverTree) : CoverTree :=
  mkCoverTree (builder s) (temp_point_cloud s) w r (metric s).

Section Methods.
Variable env : Env.

Definition new : CoverTree :=
  mkCoverTree (Some (builder_new env)) None None None "DefaultLabeledCloud<L2>".

(** The four setters share one shape: update the builder, or panic. *)
Definition set_with (f : Builder -> Builder) (s : CoverTree) : py unit * CoverTree :=
  match builder s with
  | Some b => (POk tt, with_builder (Some (f b)) s)
  | None => (PPanic "Set too late", s)
  end.

Definition set_scale_base (x : Q) := set_with (builder_set_scale_base x).
Definition set_leaf_cutoff (x : nat) := set_with (builder_set_leaf_cutoff x).
Definition set_min_res_index (x : Z) := set_with (builder_set_min_res_index x).
Definition set_use_singletons (x : bool) := set_with (builder_set_use_singletons x).

Definition load_yaml_config (file_name : string) (s : CoverTree)
  : py unit * CoverTree :=
  match unwrap_res (yaml_cloud env file_name) with
  | POk point_cloud =>
      (POk tt, with_temp (Some point_cloud)
                 (with_builder (Some (yaml_builder env file_name)) s))
  | PErr e => (PErr e, s)
  | PPanic m => (PPanic m, s)
  end.

Definition set_metric (metric_name : string) (s : CoverTree) : py unit * CoverTree :=
  (POk tt, mkCoverTree (builder s) (temp_point_cloud s) (writer s) (reader s) metric_name).

(** The point cloud of [fit], with the state after [temp_point_cloud.take()]. *)
Definition fit_point_cloud (data : option PyArray2) (labels : option (PyArray1 nat))
  (s : CoverTree) : py Cloud * CoverTree :=
  match data with
  | Some data =>
      let len := pa2_rows data in
      let data_dim := pa2_cols data in
      (my_labels <- fit_labels len labels ;;
       d <- unwrap_res (as_slice2 data) ;;
       POk (new_simple d data_dim my_labels), s)
  | None =>
      match temp_point_cloud s with
      | Some point_cloud => (POk point_cloud, with_temp None s)
      | None => (PPanic "No known point_cloud", s)
      end
  end.

Definition fit (data : option PyArray2) (labels : option (PyArray1 nat))
  (s : CoverTree) : py unit * CoverTree :=
  match fit_point_cloud data labels s with
  | (POk point_cloud, s1) =>
      let s2 := with_builder None s1 in            (* self.builder.take() *)
      match unwrap_opt (builder s1) with
      | POk b =>
          match unwrap_res (build (construct env) b point_cloud) with
          | POk w0 =>
              let w1 := generate_summaries w0 in
              let w2 := fst (add_plugin DiagGaussian w1) in
              let w3 := fst (add_plugin Dirichlet w2) in
              let r := writer_reader w3 in
              (POk tt, with_writer_reader (Some w3) (Some r) s2)
          | PErr e => (PErr e, s2)
          | PPanic m => (PPanic m, s2)
          end
      | PErr e => (PErr e, s2)
      | PPanic m => (PPanic m, s2)
      end
  | (PErr e, s1) => (PErr e, s1)
  | (PPanic m, s1) => (PPanic m, s1)
  end.

(** The methods of the class, as calls from Python. *)
Inductive Call :=
| SetScaleBase (x : Q)
| SetLeafCutoff (x : nat)
| SetMinResIndex (x : Z)
| SetUseSingletons (x : bool)
| LoadYamlConfig (file_name : string)
| SetMetric (metric_name : string)
| Fit (data : option PyArray2) (labels : option (PyArray1 nat))
| DataPoint (point_index : nat)
| TopScale
| BottomScale
| Layer (scale_index : Z)
| GetNode (address : NodeAddress)
| Root
| Knn (point : PyArray1 Z) (k : nat)
| DryInsert (point : PyArray1 Z).

Definition unit_call (m : py unit * CoverTree) : py Value * CoverTree :=
  (py_map (fun _ => VUnit) (fst m), snd m).

Definition step (s : CoverTree) (c : Call) : py Value * CoverTree :=
  match c with
  | SetScaleBase x => unit_call (set_scale_base x s)
  | SetLeafCutoff x => unit_call (set_leaf_cutoff x s)
  | SetMinResIndex x => unit_call (set_min_res_index x s)
  | SetUseSingletons x => unit_call (set_use_singletons x s)
  | LoadYamlConfig f => unit_call (load_yaml_config f s)
  | SetMetric m => unit_call (set_metric m s)
  | Fit d l => unit_call (fit d l s)
  | DataPoint i => (py_map VPoint (data_point (reader s) i), s)
  | TopScale => (POk (VOptZ (top_scale (reader s))), s)
  | BottomScale => (POk (VOptZ (bottom_scale (reader s))), s)
  | Layer si => (py_map VLayer (layer (reader s) si), s)
  | GetNode a => (py_map VNode (node (reader s) a), s)
  | Root => (py_map VNode (root (reader s)), s)
  | Knn p k => (py_map VKnn (knn (reader s) p k), s)
  | DryInsert p => (py_map VPath (dry_insert (reader s) p), s)
  end.

(** A sequence of calls from the host.  A panic does not stop the
    sequence: the state reached at the panic is kept, as when the host
    catches the panic as an exception (an aborting host only runs a
    prefix of the sequence). *)
Fixpoint run (s : CoverTree) (cs : list Call) : list (py Value) * CoverTree :=
  match cs with
  | [] => ([], s)
  | c :: cs' =>
      let '(v, s1) := step s c in
      let '(vs, s2) := run s1 cs' in (v :: vs, s2)
  end.

End Methods.
End Goko.

(** Modelled from the spec: [cover_tree_from_labeled_yaml(path)] loads the
    labelled cloud and the builder of a YAML configuration and builds. *)
Definition cover_tree_from_labeled_yaml (env : Env) (file_name : string)
  : result Writer CoreError :=
  match yaml_cloud env file_name with
  | Ok pc => build (construct env) (yaml_builder env file_name) pc
  | Err e => Err e
  end.

(** ** [pygrandma]: the [PyGrandma] class *)
Module Grandma.

Record PyGrandma := mkPyGrandma {
  builder : option Builder;
  writer : option Writer;
  reader : option Reader;
  metric : string
}.

Definition with_builder (b : option Builder) (s : PyGrandma) : PyGrandma :=
  mkPyGrandma b (writer s) (reader s) (metric s).
Definition with_writer_reader (w : option Writer) (r : option Reader)
  (s : PyGrandma) : PyGrandma :=
  mkPyGrandma (builder s) w r (metric s).

Section Methods.
Variable env : Env.

Definition new : PyGrandma :=
  mkPyGrandma (Some (builder_new env)) None None "DefaultLabeledCloud<L2>".

Definition set_with (f : Builder -> Builder) (s : PyGrandma) : py unit * PyGrandma :=
  match builder s with
  | Some b => (POk tt, with_builder (Some (f b)) s)
  | None => (PPanic "Set too late", s)
  end.

Definition set_scale_base (x : Q) := set_with (builder_set_scale_base x).
Definition set_cutoff (x : nat) := set_with (builder_set_leaf_cutoff x).
Definition set_resolution (x : Z) := set_with (builder_set_min_res_index x).
Definition set_use_singletons (x : bool) := set_with (builder_set_use_singletons x).

Definition set_metric (metric_name : string) (s : PyGrandma) : py unit * PyGrandma :=
  (POk tt, mkPyGrandma (builder s) (writer s) (reader s) metric_name).

(** The point cloud built by [fit]. *)
Definition fit_point_cloud (data : PyArray2) (labels : option (PyArray1 nat))
  : py Cloud :=
  let len := pa2_rows data in
  let data_dim := pa2_cols data in
  my_labels <- fit_labels len labels ;;
  d <- unwrap_res (as_slice2 data) ;;
  POk (new_simple d data_dim my_labels).

Definition fit (data : PyArray2) (labels : option (PyArray1 nat)) (s : PyGrandma)
  : py unit * PyGrandma :=
  match fit_point_cloud data labels with
  | POk pointcloud =>
      let s2 := with_builder None s in            (* self.builder.take() *)
      match unwrap_opt (builder s) with
      | POk b =>
          match unwrap_res (build (construct env) b pointcloud) with
          | POk w0 =>
              let w1 := generate_summaries w0 in
              let w2 := fst (add_plugin DiagGaussian w1) in
              let w3 := fst (add_plugin Dirichlet w2) in
              let r := writer_reader w3 in
              (POk tt, with_writer_reader (Some w3) (Some r) s2)
          | PErr e => (PErr e, s2)
          | PPanic m => (PPanic m, s2)
          end
      | PErr e => (PErr e, s2)
      | PPanic m => (PPanic m, s2)
      end
  | PErr e => (PErr e, s)
  | PPanic m => (PPanic m, s)
  end.

Definition fit_yaml (file_name : string) (s : PyGrandma) : py unit * PyGrandma :=
  match unwrap_res (cover_tree_from_labeled_yaml env file_name) with
  | POk w0 =>
      let w1 := generate_summaries w0 in
      let w2 := fst (add_plugin DiagGaussian w1) in
      let w3 := fst (add_plugin Dirichlet w2) in
      let s1 := with_writer_reader (writer s) (Some (writer_reader w3)) s in
      let s2 := with_writer_reader (Some w3) (reader s1) s1 in
      (POk tt, with_builder None s2)
  | PErr e => (PErr e, s)
  | PPanic m => (PPanic m, s)
  end.

Inductive Call :=
| SetScaleBase (x : Q)
| SetCutoff (x : nat)
| SetResolution (x : Z)
| SetUseSingletons (x : bool)
| SetMetric (metric_name : string)
| Fit (data : PyArray2) (labels : option (PyArray1 nat))
| FitYaml (file_name : string)
| DataPoint (point_index : nat)
| TopScale
| BottomScale
| Layer (scale_index : Z)
| GetNode (address : NodeAddress)
| Root
| Knn (point : PyArray1 Z) (k : nat)
| DryInsert (point : PyArray1 Z).

Definition unit_call (m : py unit * PyGrandma) : py Value * PyGrandma :=
  (py_map (fun _ => VUnit) (fst m), snd m).

Definition step (s : PyGrandma) (c : Call) : py Value * PyGrandma :=
  match c with
  | SetScaleBase x => unit_call (set_scale_base x s)
  | SetCutoff x => unit_call (set_cutoff x s)
  | SetResolution x => unit_call (set_resolution x s)
  | SetUseSingletons x => unit_call (set_use_singletons x s)
  | SetMetric m => unit_call (set_metric m s)
  | Fit d l => unit_call (fit d l s)
  | FitYaml f => unit_call (fit_yaml f s)
  | DataPoint i => (py_map VPoint (data_point (reader s) i), s)
  | TopScale => (POk (VOptZ (top_scale (reader s))), s)
  | BottomScale => (POk (VOptZ (bottom_scale (reader s))), s)
  | Layer si => (py_map VLayer (layer (reader s) si), s)
  | GetNode a => (py_map VNode (node (reader s) a), s)
  | Root => (py_map VNode (root (reader s)), s)
  | Knn p k => (py_map VKnn (knn (reader s) p k), s)
  | DryInsert p => (py_map VPath (dry_insert (reader s) p), s)
  end.

Fixpoint run (s : PyGrandma) (cs : list Call) : list (py Value) * PyGrandma :=
  match cs with
  | [] => ([], s)
  | c :: cs' =>
      let '(v, s1) := step s c in
      let '(vs, s2) := run s1 cs' in (v :: vs, s2)
  end.

End Methods.
End Grandma.

(** ** The remaining [&self] methods, common to both classes *)

(** Modelled from the spec: [BayesCategoricalTracker::new(prior_weight,
    observation_weight, window_size, reader)] creates a tracker bound to
    the reader it is given. *)
Record BayesCategoricalTracker := mkBayesCategoricalTracker {
  tracker_prior_weight : Q;
  tracker_observation_weight : Q;
  tracker_window_size : nat;
  tracker_reader : Reader
}.

(** [PyBayesCategoricalTracker]. *)
Record PyBayesCategoricalTracker := mkPyBayesCategoricalTracker {
  hkl : BayesCategoricalTracker;
  tracker_tree : Reader
}.

(** [kl_div_dirichlet]: [size as usize] keeps the value ([f64] as [Q],
    [u64] and [usize] as [nat]). *)
Definition kl_div_dirichlet (reader : option Reader) (writer : option Writer)
  (prior_weight observation_weight : Q) (size : nat)
  : py PyBayesCategoricalTracker :=
  r <- unwrap_opt reader ;;
  w <- unwrap_opt writer ;;
  POk (mkPyBayesCategoricalTracker
         (mkBayesCategoricalTracker prior_weight observation_weight size
            (writer_reader w))
         r).

(** ** A concrete instance, to evaluate the bindings on inputs *)

(** A two-level tree: a root at scale 1 on point 0 whose children, at
    scale 0, are the points of the cloud. *)
Definition flat_construct (p : Params) : Tree :=
  let n := cloud_len (point_cloud p) in
  mkTree
    (((1, 0%nat), mkNode 0 (map (fun i => (0, i)) (seq 0 n)) [])
       :: map (fun i => ((0, i), mkNode i [] [])) (seq 0 n))
    (1, 0%nat) (0, 2).

Definition default_builder : Builder := mkBuilder 2 1 (-10) true.

(** Two configuration files over the same cloud: ["good.yml"] with the
    default builder, ["bad.yml"] whose scale base is 1/2. *)
Definition demo_env : Env :=
  mkEnv flat_construct default_builder
    (fun f => if String.eqb f "bad.yml" || String.eqb f "good.yml"
              then Ok (mkCloud [0; 0; 3; 4] 2 [0; 1]%nat)
              else Err DataError)
    (fun f => if String.eqb f "bad.yml" then mkBuilder (1 # 2) 1 (-10) true
              else default_builder).

(** Three points of dimension 2: (0,0), (3,4), (1,1). *)
Definition demo_data : PyArray2 := mkPyArray2 [0; 0; 3; 4; 1; 1] 3 2 true.

Definition demo_fitted : Goko.CoverTree :=
  snd (Goko.fit demo_env (Some demo_data) None (Goko.new demo_env)).

(** The reader stored by that [fit]. *)
Definition demo_reader : Reader :=
  let p := mkParams (mkCloud [0; 0; 3; 4; 1; 1] 2 [0; 0; 0]%nat) 2 1 (-10) true in
  mkReader p (flat_construct p) true [DiagGaussian; Dirichlet].

(** * Properties *)

(** ** The KNN order *)

Definition dist_le (a b : Z * nat) : Prop := fst a <= fst b.

Lemma cand_leb_dist_le (a b : Z * nat) : cand_leb a b = true -> dist_le a b.
Proof.
  unfold cand_leb, dist_le.
  rewrite orb_true_iff, andb_true_iff, Z.ltb_lt, Z.eqb_eq. lia.
Qed.

Lemma cand_leb_false_dist_le (a b : Z * nat) : cand_leb a b = false -> dist_le b a.
Proof.
  unfold cand_leb, dist_le.
  rewrite orb_false_iff, Z.ltb_ge. intros [H _]. exact H.
Qed.

Lemma insert_cand_hd (c d : Z * nat) (l : list (Z * nat)) :
  dist_le d c -> HdRel dist_le d l -> HdRel dist_le d (insert_cand c l).
Proof.
  intros Hdc Hl. destruct l as [| e l]; simpl.
  - constructor. exact Hdc.
  - destruct (cand_leb c e); constructor; [exact Hdc | inversion Hl; assumption].
Qed.

Lemma insert_cand_sorted (c : Z * nat) (l : list (Z * nat)) :
  Sorted dist_le l -> Sorted dist_le (insert_cand c l).
Proof.
  induction l as [| d l IH]; intros Hs; simpl.
  - repeat constructor.
  - case_eq (cand_leb c d); intros Hcd.
    + constructor; [exact Hs | constructor; apply cand_leb_dist_le; exact Hcd].
    + apply Sorted_inv in Hs as [Hs Hhd]. constructor.
      * apply IH, Hs.
      * apply insert_cand_hd; [apply cand_leb_false_dist_le; exact Hcd | exact Hhd].
Qed.

Lemma sort_cands_sorted (l : list (Z * nat)) : Sorted dist_le (sort_cands l).
Proof.
  induction l as [| c l IH]; simpl; [constructor | apply insert_cand_sorted, IH].
Qed.

Lemma insert_cand_length (c : Z * nat) (l : list (Z * nat)) :
  List.length (insert_cand c l) = S (List.length l).
Proof.
  induction l as [| d l IH]; simpl; [reflexivity |].
  destruct (cand_leb c d); simpl; [reflexivity | rewrite IH; reflexivity].
Qed.

Lemma sort_cands_length (l : list (Z * nat)) :
  List.length (sort_cands l) = List.length l.
Proof.
  induction l as [| c l IH]; simpl; [reflexivity |].
  rewrite insert_cand_length, IH. reflexivity.
Qed.

Lemma firstn_sorted (k : nat) (l : list (Z * nat)) :
  Sorted dist_le l -> Sorted dist_le (firstn k l).
Proof.
  revert l. induction k as [| k IH]; intros l Hs; [constructor |].
  destruct l as [| c l]; simpl; [constructor |].
  apply Sorted_inv in Hs as [Hs Hhd]. constructor.
  - apply IH, Hs.
  - destruct k, l; simpl; try constructor.
    inversion Hhd; assumption.
Qed.

(** C3: for every fitted tree over N points, every query point (a
    contiguous array of the cloud's dimension) and every k, [knn] returns
    (distance, point index) pairs in non-decreasing distance, exactly
    [min k N] of them; in particular none for k = 0. *)
Theorem C3_knn_sorted_length (r : Reader) (point : PyArray1 Z) (k : nat)
  (Hslice : pa_contiguous point = true)
  (Hdim : List.length (pa_data point) = pc_dim (point_cloud (r_params r))) :
  exists res,
    knn (Some r) point k = POk res /\
    Sorted (fun a b => fst a <= fst b) res /\
    List.length res = Nat.min k (cloud_len (point_cloud (r_params r))) /\
    (k = 0%nat -> res = []).
Proof.
  unfold knn, as_slice, knn_core. rewrite Hslice. simpl.
  rewrite Hdim, Nat.eqb_refl. simpl.
  eexists. split; [reflexivity |]. split; [| split].
  - apply firstn_sorted, sort_cands_sorted.
  - rewrite length_firstn, sort_cands_length, length_map, length_seq.
    reflexivity.
  - intros ->. reflexivity.
Qed.

Lemma C3_knn_sorted_length_witness :
  pa_contiguous (mkPyArray1 [1; 0] true) = true /\
  List.length [1; 0] = pc_dim (point_cloud (r_params demo_reader)) /\
  (exists res,
    knn (Some demo_reader) (mkPyArray1 [1; 0] true) 2 = POk res /\
    Sorted (fun a b => fst a <= fst b) res /\
    List.length res = Nat.min 2 (cloud_len (point_cloud (r_params demo_reader))) /\
    (2%nat = 0%nat -> res = [])).
Proof.
  split; [reflexivity | split; [reflexivity |]].
  apply (C3_knn_sorted_length demo_reader (mkPyArray1 [1; 0] true) 2); vm_compute; reflexivity.
Defined.

Lemma demo_fitted_reader : Goko.reader demo_fitted = Some demo_reader.
Proof. vm_compute. reflexivity. Qed.

(** C9: for a fitted tree, [data_point] returns [None] (no error) when the
    point-cloud lookup fails, and an array of the cloud's dimension for
    every index in range. *)
Theorem C9_data_point (r : Reader) (point_index : nat) :
  (forall e, cloud_point (point_cloud (r_params r)) point_index = Err e ->
     data_point (Some r) point_index = POk None) /\
  ((point_index < cloud_len (point_cloud (r_params r)))%nat ->
     exists a, data_point (Some r) point_index = POk (Some a) /\
       List.length a = pc_dim (point_cloud (r_params r))).
Proof.
  split.
  - intros e He. unfold data_point. simpl. rewrite He. reflexivity.
  - intros Hlt. unfold data_point. simpl.
    destruct (point_cloud (r_params r)) as [data dim labels]. simpl in *.
    unfold cloud_point, cloud_len in *. simpl in *.
    assert (Hi : (point_index <? List.length data / dim)%nat = true)
      by (apply Nat.ltb_lt; exact Hlt).
    rewrite Hi.
    assert (Hd : dim <> 0%nat) by (intros ->; simpl in Hlt; lia).
    assert (Hbound : (point_index * dim + dim <= List.length data)%nat).
    { pose proof (Nat.Div0.mul_div_le (List.length data) dim). nia. }
    assert (Hlen : List.length (firstn dim (skipn (point_index * dim) data)) = dim).
    { rewrite length_firstn, length_skipn. lia. }
    unfold from_shape_vec, dense_iter. rewrite Hlen, Nat.eqb_refl. simpl.
    eexists. split; [reflexivity | exact Hlen].
Qed.

(** ** Core errors at the binding boundary *)

Definition unwrap_panic : string :=
  "called `Result::unwrap()` on an `Err` value".

Lemma unwrap_res_err {A E} (e : E) : @unwrap_res A E (Err e) = PPanic unwrap_panic.
Proof. reflexivity. Qed.

Ltac destruct_matches :=
  repeat match goal with
         | |- context [match ?x with _ => _ end] => destruct x eqn:?
         | H : context [match ?x with _ => _ end] |- _ => destruct x eqn:?
         end.

Lemma fit_labels_no_err (len : nat) (labels : option (PyArray1 nat)) e :
  fit_labels len labels <> PErr e.
Proof.
  unfold fit_labels, unwrap_res, as_slice. destruct_matches; discriminate.
Qed.

(** Every core error reached through [node], [knn], [dry_insert] or
    [fit] makes the binding panic through [unwrap]; no method ever returns
    an error through [PyResult]. *)
Theorem core_errors_panic (env : Env) :
  (forall r a e, get_node_and r a (fun _ => true) = Err e ->
     node (Some r) a = PPanic unwrap_panic) /\
  (forall r p k e, pa_contiguous p = true -> knn_core r (pa_data p) k = Err e ->
     knn (Some r) p k = PPanic unwrap_panic) /\
  (forall r p e, pa_contiguous p = true -> dry_insert_core r (pa_data p) = Err e ->
     dry_insert (Some r) p = PPanic unwrap_panic) /\
  (forall s d l pc s1 b e, Goko.fit_point_cloud d l s = (POk pc, s1) ->
     Goko.builder s1 = Some b -> build (construct env) b pc = Err e ->
     fst (Goko.fit env d l s) = PPanic unwrap_panic) /\
  (forall s d l pc b e, Grandma.fit_point_cloud d l = POk pc ->
     Grandma.builder s = Some b -> build (construct env) b pc = Err e ->
     fst (Grandma.fit env d l s) = PPanic unwrap_panic) /\
  (forall reader a e, node reader a <> PErr e) /\
  (forall reader p k e, knn reader p k <> PErr e) /\
  (forall reader p e, dry_insert reader p <> PErr e) /\
  (forall s d l e, fst (Goko.fit env d l s) <> PErr e) /\
  (forall s d l e, fst (Grandma.fit env d l s) <> PErr e).
Proof.
  repeat split.
  - intros r a e H. unfold node. simpl. rewrite H. reflexivity.
  - intros r p k e Hc H. unfold knn, as_slice. simpl. rewrite Hc. simpl.
    rewrite H. reflexivity.
  - intros r p e Hc H. unfold dry_insert, as_slice. simpl. rewrite Hc. simpl.
    rewrite H. reflexivity.
  - intros s d l pc s1 b e Hpc Hb Hbuild. unfold Goko.fit.
    rewrite Hpc, Hb. simpl. rewrite Hbuild. reflexivity.
  - intros s d l pc b e Hpc Hb Hbuild. unfold Grandma.fit.
    rewrite Hpc, Hb. simpl. rewrite Hbuild. reflexivity.
  - intros reader a e. unfold node, unwrap_opt, unwrap_res, py_bind.
    destruct_matches; discriminate.
  - intros reader p k e. unfold knn, unwrap_opt, unwrap_res, py_bind.
    destruct_matches; discriminate.
  - intros reader p e. unfold dry_insert, unwrap_opt, unwrap_res, py_bind.
    destruct_matches; discriminate.
  - intros s d l e. unfold Goko.fit, Goko.fit_point_cloud, unwrap_opt, unwrap_res.
    destruct d as [d |].
    + pose proof (fit_labels_no_err (pa2_rows d) l). unfold py_bind.
      destruct_matches; simpl in *; try discriminate; try congruence.
    + destruct (Goko.temp_point_cloud s); simpl;
        destruct_matches; simpl; discriminate.
  - intros s d l e. unfold Grandma.fit, Grandma.fit_point_cloud, unwrap_opt, unwrap_res.
    pose proof (fit_labels_no_err (pa2_rows d) l). unfold py_bind.
    destruct_matches; simpl in *; try discriminate; try congruence.
Qed.

(** ** Layers *)

(** C2: the demo tree has no node at scale 7 (its scales are 0 and 1), so
    the core's [Reader.layer(7)] fails with "scale not present"; the
    bindings' [layer(7)] of [CoverTree] and of [PyGrandma] does not consult
    the tree and returns a layer handle. *)
Lemma C2_layer_absent_scale_succeeds :
  reader_layer demo_reader 7 = Err ScaleNotPresent /\
  top_scale (Some demo_reader) = Some 1 /\
  bottom_scale (Some demo_reader) = Some 0 /\
  fst (Goko.step demo_env demo_fitted (Goko.Layer 7)) =
    POk (VLayer (mkPyLayer (r_params demo_reader) demo_reader 7)) /\
  fst (Grandma.step demo_env
         (Grandma.mkPyGrandma None None (Some demo_reader) "DefaultLabeledCloud<L2>")
         (Grandma.Layer 7)) =
    POk (VLayer (mkPyLayer (r_params demo_reader) demo_reader 7)).
Proof.
  unfold Goko.step. rewrite demo_fitted_reader.
  repeat split; vm_compute; reflexivity.
Qed.

(** ** Dry insertion *)















Section WellFormed.

Variable r : Reader.
Variable q : list Z.
(** Children sit at a finer scale than their parent. *)
Hypothesis Hwf : forall a n c, lookup_node r a = Some n -> In c (n_children n) -> fst c < fst a.




End WellFormed.


(** ** Failed builds *)

(** C5 (counterexample): after a successful [fit], [load_yaml_config]
    installs the builder of ["bad.yml"] (scale base 1/2); the next [fit]
    reaches [build], which fails with a configuration error, and panics:
    the object keeps the reader of the first [fit], it is not unset. *)
Lemma C5_failed_fit_keeps_previous_reader :
  build flat_construct (yaml_builder demo_env "bad.yml")
        (mkCloud [0; 0; 3; 4] 2 [0; 1]%nat) = Err ConfigurationError /\
  fst (Goko.run demo_env (Goko.new demo_env)
         [Goko.Fit (Some demo_data) None; Goko.LoadYamlConfig "bad.yml";
          Goko.Fit None None]) = [POk VUnit; POk VUnit; PPanic unwrap_panic] /\
  Goko.reader (snd (Goko.run demo_env (Goko.new demo_env)
         [Goko.Fit (Some demo_data) None; Goko.LoadYamlConfig "bad.yml";
          Goko.Fit None None])) = Some demo_reader.
Proof. repeat split; vm_compute; reflexivity. Qed.

Lemma Goko_fit_failed_keeps (env : Env) s d l :
  fst (Goko.fit env d l s) <> POk tt ->
  Goko.reader (snd (Goko.fit env d l s)) = Goko.reader s /\
  Goko.writer (snd (Goko.fit env d l s)) = Goko.writer s.
Proof.
  unfold Goko.fit, Goko.fit_point_cloud, unwrap_opt, unwrap_res.
  destruct d as [d |].
  - unfold py_bind. destruct_matches; simpl in *; try congruence; intros _;
      try (inversion Heqp; subst); split; reflexivity.
  - destruct (Goko.temp_point_cloud s); simpl;
      destruct_matches; simpl; intros; try congruence; split; reflexivity.
Qed.

Lemma Grandma_fit_failed_keeps (env : Env) s d l :
  fst (Grandma.fit env d l s) <> POk tt ->
  Grandma.reader (snd (Grandma.fit env d l s)) = Grandma.reader s /\
  Grandma.writer (snd (Grandma.fit env d l s)) = Grandma.writer s.
Proof.
  unfold Grandma.fit, unwrap_opt, unwrap_res.
  destruct_matches; simpl in *; intros; try congruence; split; reflexivity.
Qed.

Lemma Grandma_fit_yaml_failed_keeps (env : Env) s f :
  fst (Grandma.fit_yaml env f s) <> POk tt ->
  Grandma.reader (snd (Grandma.fit_yaml env f s)) = Grandma.reader s /\
  Grandma.writer (snd (Grandma.fit_yaml env f s)) = Grandma.writer s.
Proof.
  unfold Grandma.fit_yaml, unwrap_res.
  destruct_matches; simpl in *; intros; try congruence; split; reflexivity.
Qed.

(** C5 (amended): [build] fails with a configuration error when the scale
    base is not > 1 or the cutoff is not >= 1, and with a data error on an
    empty cloud; a [fit] (or [fit_yaml]) that does not succeed never stores
    a writer or a reader: both fields keep their value from before the
    call, so they stay unset on an object never fitted. *)
Theorem C5_build_errors_abort :
  (forall c b pc, Qle_bool (b_scale_base b) 1 = true ->
     build c b pc = Err ConfigurationError) /\
  (forall c b pc, (b_leaf_cutoff b < 1)%nat ->
     build c b pc = Err ConfigurationError) /\
  (forall c b pc, Qle_bool (b_scale_base b) 1 = false -> (1 <= b_leaf_cutoff b)%nat ->
     cloud_len pc = 0%nat -> build c b pc = Err DataError) /\
  (forall env s d l, fst (Goko.fit env d l s) <> POk tt ->
     Goko.reader (snd (Goko.fit env d l s)) = Goko.reader s /\
     Goko.writer (snd (Goko.fit env d l s)) = Goko.writer s) /\
  (forall env s d l, fst (Grandma.fit env d l s) <> POk tt ->
     Grandma.reader (snd (Grandma.fit env d l s)) = Grandma.reader s /\
     Grandma.writer (snd (Grandma.fit env d l s)) = Grandma.writer s) /\
  (forall env s f, fst (Grandma.fit_yaml env f s) <> POk tt ->
     Grandma.reader (snd (Grandma.fit_yaml env f s)) = Grandma.reader s /\
     Grandma.writer (snd (Grandma.fit_yaml env f s)) = Grandma.writer s) /\
  (forall env d l, fst (Goko.fit env d l (Goko.new env)) <> POk tt ->
     Goko.reader (snd (Goko.fit env d l (Goko.new env))) = None) /\
  (forall env d l, fst (Grandma.fit env d l (Grandma.new env)) <> POk tt ->
     Grandma.reader (snd (Grandma.fit env d l (Grandma.new env))) = None).
Proof.
  split; [| split; [| split; [| split; [| split; [| split; [| split]]]]]].
  - intros c b pc H. unfold build. rewrite H. reflexivity.
  - intros c b pc H. unfold build.
    destruct (Qle_bool _ _); [reflexivity |].
    apply Nat.ltb_lt in H. rewrite H. reflexivity.
  - intros c b pc Hb Hc He. unfold build. rewrite Hb, He.
    apply Nat.ltb_ge in Hc. rewrite Hc. reflexivity.
  - intros env s d l H. apply Goko_fit_failed_keeps, H.
  - intros env s d l H. apply Grandma_fit_failed_keeps, H.
  - intros env s f H. apply Grandma_fit_yaml_failed_keeps, H.
  - intros env d l H. apply (Goko_fit_failed_keeps env (Goko.new env) d l H).
  - intros env d l H. apply (Grandma_fit_failed_keeps env (Grandma.new env) d l H).
Qed.

(** ** Summaries and plugins *)

Lemma build_fresh c b pc w :
  build c b pc = Ok w -> w_log w = [] /\ w_plugins w = [] /\ w_summaries w = false.
Proof.
  unfold build. destruct_matches; intros H; try discriminate.
  injection H as <-. repeat split.
Qed.

(** What [fit] does to the freshly built writer. *)
Definition fit_writer (w0 : Writer) : Writer :=
  fst (add_plugin Dirichlet (fst (add_plugin DiagGaussian (generate_summaries w0)))).

Definition fit_log : list WriterEvent :=
  [EvGenerateSummaries; EvAddPlugin DiagGaussian; EvAddPlugin Dirichlet].

Lemma fit_writer_fresh w0 :
  w_log w0 = [] -> w_plugins w0 = [] ->
  w_log (fit_writer w0) = fit_log /\
  w_plugins (fit_writer w0) = [DiagGaussian; Dirichlet] /\
  w_summaries (fit_writer w0) = true.
Proof.
  intros Hl Hp. unfold fit_writer, add_plugin, generate_summaries. simpl.
  rewrite Hl, Hp. repeat split.
Qed.

Lemma Goko_fit_ok (env : Env) s d l :
  fst (Goko.fit env d l s) = POk tt ->
  exists w0, w_log w0 = [] /\ w_plugins w0 = [] /\
    Goko.writer (snd (Goko.fit env d l s)) = Some (fit_writer w0) /\
    Goko.reader (snd (Goko.fit env d l s)) = Some (writer_reader (fit_writer w0)).
Proof.
  unfold Goko.fit, unwrap_opt, unwrap_res.
  destruct (Goko.fit_point_cloud d l s) as [[pc | e | m] s1]; simpl; try discriminate.
  destruct (Goko.builder s1) as [b |]; simpl; try discriminate.
  case_eq (build (construct env) b pc); [intros w0 Hw | intros e Hw]; simpl;
    try discriminate.
  intros _. apply build_fresh in Hw as [Hl [Hp _]].
  exists w0. repeat split; assumption.
Qed.

Lemma Grandma_fit_ok (env : Env) s d l :
  fst (Grandma.fit env d l s) = POk tt ->
  exists w0, w_log w0 = [] /\ w_plugins w0 = [] /\
    Grandma.writer (snd (Grandma.fit env d l s)) = Some (fit_writer w0) /\
    Grandma.reader (snd (Grandma.fit env d l s)) = Some (writer_reader (fit_writer w0)).
Proof.
  unfold Grandma.fit, unwrap_opt, unwrap_res.
  destruct (Grandma.fit_point_cloud d l) as [pc | e | m]; simpl; try discriminate.
  destruct (Grandma.builder s) as [b |]; simpl; try discriminate.
  case_eq (build (construct env) b pc); [intros w0 Hw | intros e Hw]; simpl;
    try discriminate.
  intros _. apply build_fresh in Hw as [Hl [Hp _]].
  exists w0. repeat split; assumption.
Qed.

Lemma Grandma_fit_yaml_ok (env : Env) s f :
  fst (Grandma.fit_yaml env f s) = POk tt ->
  exists w0, w_log w0 = [] /\ w_plugins w0 = [] /\
    Grandma.writer (snd (Grandma.fit_yaml env f s)) = Some (fit_writer w0) /\
    Grandma.reader (snd (Grandma.fit_yaml env f s)) = Some (writer_reader (fit_writer w0)).
Proof.
  unfold Grandma.fit_yaml, unwrap_res, cover_tree_from_labeled_yaml.
  destruct (yaml_cloud env f) as [pc | e]; simpl; try discriminate.
  case_eq (build (construct env) (yaml_builder env f) pc); [intros w0 Hw | intros e Hw];
    simpl; try discriminate.
  intros _. apply build_fresh in Hw as [Hl [Hp _]].
  exists w0. repeat split; assumption.
Qed.

(** The reader stored by a successful fit: summaries generated first, then
    the two plugins, each attached without error, and only then the
    reader taken, which carries both plugins. *)
Definition fit_result_ok (w : option Writer) (r : option Reader) : Prop :=
  exists w0 w3,
    w = Some w3 /\ r = Some (writer_reader w3) /\ w3 = fit_writer w0 /\
    w_log w3 = fit_log /\
    snd (add_plugin DiagGaussian (generate_summaries w0)) = Ok tt /\
    snd (add_plugin Dirichlet (fst (add_plugin DiagGaussian (generate_summaries w0)))) = Ok tt /\
    r_summaries (writer_reader w3) = true /\
    r_plugins (writer_reader w3) = [DiagGaussian; Dirichlet].

Lemma fit_result_ok_intro w0 :
  w_log w0 = [] -> w_plugins w0 = [] ->
  fit_result_ok (Some (fit_writer w0)) (Some (writer_reader (fit_writer w0))).
Proof.
  intros Hl Hp. destruct (fit_writer_fresh w0 Hl Hp) as [H1 [H2 H3]].
  exists w0, (fit_writer w0). repeat split; try assumption.
Qed.

(** C6: in every successful [fit] (of [CoverTree] or [PyGrandma], and in
    [PyGrandma.fit_yaml]), [generate_summaries] is called on the writer
    before any [add_plugin], no [add_plugin] fails, and the reader stored
    is taken after both plugins (diagonal Gaussian, Dirichlet) are
    attached, so it carries both. *)
Theorem C6_fit_summaries_then_plugins (env : Env) :
  (forall s d l, fst (Goko.fit env d l s) = POk tt ->
     fit_result_ok (Goko.writer (snd (Goko.fit env d l s)))
                   (Goko.reader (snd (Goko.fit env d l s)))) /\
  (forall s d l, fst (Grandma.fit env d l s) = POk tt ->
     fit_result_ok (Grandma.writer (snd (Grandma.fit env d l s)))
                   (Grandma.reader (snd (Grandma.fit env d l s)))) /\
  (forall s f, fst (Grandma.fit_yaml env f s) = POk tt ->
     fit_result_ok (Grandma.writer (snd (Grandma.fit_yaml env f s)))
                   (Grandma.reader (snd (Grandma.fit_yaml env f s)))).
Proof.
  split; [| split].
  - intros s d l H. destruct (Goko_fit_ok env s d l H) as [w0 [Hl [Hp [-> ->]]]].
    apply fit_result_ok_intro; assumption.
  - intros s d l H. destruct (Grandma_fit_ok env s d l H) as [w0 [Hl [Hp [-> ->]]]].
    apply fit_result_ok_intro; assumption.
  - intros s f H. destruct (Grandma_fit_yaml_ok env s f H) as [w0 [Hl [Hp [-> ->]]]].
    apply fit_result_ok_intro; assumption.
Qed.

(** ** The single-use builder *)

(** C7 (counterexample): after [fit] has consumed the builder of a
    [CoverTree], [load_yaml_config] installs a new one; the setter that
    follows and a second [fit] then both succeed. *)
Lemma C7_builder_reinstalled_by_load_yaml :
  fst (Goko.run demo_env (Goko.new demo_env)
         [Goko.Fit (Some demo_data) None; Goko.LoadYamlConfig "good.yml";
          Goko.SetScaleBase 3; Goko.Fit None None]) =
    [POk VUnit; POk VUnit; POk VUnit; POk VUnit].
Proof. vm_compute. reflexivity. Qed.

(** The calls that use the builder. *)
Definition Goko_uses_builder (c : Goko.Call) : bool :=
  match c with
  | Goko.SetScaleBase _ | Goko.SetLeafCutoff _ | Goko.SetMinResIndex _
  | Goko.SetUseSingletons _ | Goko.Fit _ _ => true
  | _ => false
  end.

Definition Grandma_uses_builder (c : Grandma.Call) : bool :=
  match c with
  | Grandma.SetScaleBase _ | Grandma.SetCutoff _ | Grandma.SetResolution _
  | Grandma.SetUseSingletons _ | Grandma.Fit _ _ => true
  | _ => false
  end.

Definition is_load_yaml (c : Goko.Call) : bool :=
  match c with Goko.LoadYamlConfig _ => true | _ => false end.

Lemma Goko_fit_builder (env : Env) s d l :
  Goko.builder (snd (Goko.fit env d l s)) = None \/
  Goko.builder (snd (Goko.fit env d l s)) = Goko.builder s.
Proof.
  unfold Goko.fit, Goko.fit_point_cloud.
  destruct d as [d |].
  - destruct_matches; simpl in *; try (inversion Heqp; subst); auto.
  - destruct (Goko.temp_point_cloud s); simpl; destruct_matches; simpl; auto.
Qed.

Lemma Goko_fit_ok_builder (env : Env) s d l :
  fst (Goko.fit env d l s) = POk tt -> Goko.builder (snd (Goko.fit env d l s)) = None.
Proof.
  unfold Goko.fit, unwrap_opt, unwrap_res.
  destruct (Goko.fit_point_cloud d l s) as [[pc | e | m] s1]; simpl; try discriminate.
  destruct (Goko.builder s1); simpl; try discriminate.
  destruct (build _ _ _); simpl; [reflexivity | discriminate].
Qed.

Lemma Grandma_fit_builder (env : Env) s d l :
  Grandma.builder (snd (Grandma.fit env d l s)) = None \/
  Grandma.builder (snd (Grandma.fit env d l s)) = Grandma.builder s.
Proof.
  unfold Grandma.fit. destruct_matches; simpl; auto.
Qed.

(** C7 (amended): a successful [fit] (or [PyGrandma.fit_yaml]) leaves no
    builder; without a builder every configuration setter and [fit]
    panics, and no call brings a builder back, except
    [CoverTree.load_yaml_config], which installs a new one. *)
Theorem C7_builder_single_use (env : Env) :
  (forall s d l, fst (Goko.fit env d l s) = POk tt ->
     Goko.builder (snd (Goko.fit env d l s)) = None) /\
  (forall s c, Goko.builder s = None -> Goko_uses_builder c = true ->
     exists m, fst (Goko.step env s c) = PPanic m) /\
  (forall s c, Goko.builder s = None -> is_load_yaml c = false ->
     Goko.builder (snd (Goko.step env s c)) = None) /\
  (forall s d l, fst (Grandma.fit env d l s) = POk tt ->
     Grandma.builder (snd (Grandma.fit env d l s)) = None) /\
  (forall s f, Grandma.builder (snd (Grandma.fit_yaml env f s)) = None \/
     Grandma.builder (snd (Grandma.fit_yaml env f s)) = Grandma.builder s) /\
  (forall s f, fst (Grandma.fit_yaml env f s) = POk tt ->
     Grandma.builder (snd (Grandma.fit_yaml env f s)) = None) /\
  (forall s c, Grandma.builder s = None -> Grandma_uses_builder c = true ->
     exists m, fst (Grandma.step env s c) = PPanic m) /\
  (forall s c, Grandma.builder s = None ->
     Grandma.builder (snd (Grandma.step env s c)) = None).
Proof.
  split; [| split; [| split; [| split; [| split; [| split; [| split]]]]]].
  - apply Goko_fit_ok_builder.
  - intros s c Hb Hc. destruct c; try discriminate; simpl;
      unfold Goko.set_scale_base, Goko.set_leaf_cutoff, Goko.set_min_res_index,
        Goko.set_use_singletons, Goko.set_with;
      try (rewrite Hb; eexists; reflexivity).
    unfold Goko.fit, Goko.fit_point_cloud, unwrap_opt, py_bind.
    destruct data as [d |].
    + destruct (fit_labels _ _) eqn:Hfl; simpl; try (eexists; reflexivity);
        [| exfalso; exact (fit_labels_no_err _ _ _ Hfl)].
      destruct (as_slice2 d); simpl; try (eexists; reflexivity).
      rewrite Hb. eexists. reflexivity.
    + destruct (Goko.temp_point_cloud s); simpl; [| eexists; reflexivity].
      rewrite Hb. eexists. reflexivity.
  - intros s c Hb Hc. destruct c; try discriminate; simpl;
      unfold Goko.set_scale_base, Goko.set_leaf_cutoff, Goko.set_min_res_index,
        Goko.set_use_singletons, Goko.set_with, Goko.set_metric;
      try (rewrite Hb; simpl; exact Hb); try exact Hb.
    match goal with
    | |- context [Goko.fit env ?d ?l s] =>
        destruct (Goko_fit_builder env s d l) as [H | H]; rewrite H; auto
    end.
  - intros s d l. unfold Grandma.fit, unwrap_opt, unwrap_res.
    destruct (Grandma.fit_point_cloud d l); simpl; try discriminate.
    destruct (Grandma.builder s); simpl; try discriminate.
    destruct (build _ _ _); simpl; [reflexivity | discriminate].
  - intros s f. unfold Grandma.fit_yaml. destruct_matches; simpl; auto.
  - intros s f. unfold Grandma.fit_yaml. destruct_matches; simpl; auto; discriminate.
  - intros s c Hb Hc. destruct c; try discriminate; simpl;
      unfold Grandma.set_scale_base, Grandma.set_cutoff, Grandma.set_resolution,
        Grandma.set_use_singletons, Grandma.set_with;
      try (rewrite Hb; eexists; reflexivity).
    unfold Grandma.fit, unwrap_opt.
    destruct (Grandma.fit_point_cloud _ _) eqn:Hpc; simpl; try (eexists; reflexivity).
    + rewrite Hb. eexists. reflexivity.
    + exfalso. revert Hpc. unfold Grandma.fit_point_cloud, py_bind, unwrap_res.
      pose proof (fit_labels_no_err (pa2_rows data) labels).
      destruct_matches; simpl in *; congruence.
  - intros s c Hb. destruct c; simpl;
      unfold Grandma.set_scale_base, Grandma.set_cutoff, Grandma.set_resolution,
        Grandma.set_use_singletons, Grandma.set_with, Grandma.set_metric;
      try (rewrite Hb; simpl; exact Hb); try exact Hb.
    + match goal with
      | |- context [Grandma.fit env ?d ?l s] =>
          destruct (Grandma_fit_builder env s d l) as [H | H]; rewrite H; auto
      end.
    + unfold Grandma.fit_yaml. destruct_matches; simpl; auto.
Qed.

(** ** Labels *)

(** Two points of dimension 2. *)
Definition two_points : PyArray2 := mkPyArray2 [0; 0; 3; 4] 2 2 true.

(** C8 (counterexample): [fit] with two points and a one-entry label
    array hands the point cloud a label array of length 1 for 2 points:
    the bindings do not check the length (the build then rejects it). *)
Lemma C8_labels_length_unchecked :
  Goko.fit_point_cloud (Some two_points) (Some (mkPyArray1 [7%nat] true))
    (Goko.new demo_env) =
    (POk (mkCloud [0; 0; 3; 4] 2 [7%nat]), Goko.new demo_env) /\
  Grandma.fit_point_cloud two_points (Some (mkPyArray1 [7%nat] true)) =
    POk (mkCloud [0; 0; 3; 4] 2 [7%nat]) /\
  cloud_len (mkCloud [0; 0; 3; 4] 2 [7%nat]) = 2%nat /\
  List.length (pc_labels (mkCloud [0; 0; 3; 4] 2 [7%nat])) = 1%nat /\
  build flat_construct default_builder (mkCloud [0; 0; 3; 4] 2 [7%nat]) = Err DataError.
Proof. repeat split; vm_compute; reflexivity. Qed.

(** C8 (amended): the cloud [fit] builds from an array holds its data, its
    column count as dimension, and as labels either the given label array
    unchanged, with no check of its length, or, when labels are absent,
    [rows] zeros, one per point of a well-shaped array. *)
Theorem C8_fit_labels :
  (forall d l s pc s', Goko.fit_point_cloud (Some d) l s = (POk pc, s') ->
     pc_data pc = pa2_data d /\ pc_dim pc = pa2_cols d /\
     pc_labels pc = match l with
                    | Some la => pa_data la
                    | None => repeat 0%nat (pa2_rows d)
                    end) /\
  (forall d l pc, Grandma.fit_point_cloud d l = POk pc ->
     pc_data pc = pa2_data d /\ pc_dim pc = pa2_cols d /\
     pc_labels pc = match l with
                    | Some la => pa_data la
                    | None => repeat 0%nat (pa2_rows d)
                    end) /\
  (forall d, List.length (pa2_data d) = (pa2_rows d * pa2_cols d)%nat ->
     pa2_cols d <> 0%nat ->
     forall l pc, (Grandma.fit_point_cloud d l = POk pc \/
                   exists s s', Goko.fit_point_cloud (Some d) l s = (POk pc, s')) ->
     cloud_len pc = pa2_rows d /\
     (l = None -> List.length (pc_labels pc) = cloud_len pc)).
Proof.
  assert (Hpc : forall d l pc,
            (my_labels <- fit_labels (pa2_rows d) l ;;
             d' <- unwrap_res (as_slice2 d) ;;
             POk (new_simple d' (pa2_cols d) my_labels)) = POk pc ->
            pc_data pc = pa2_data d /\ pc_dim pc = pa2_cols d /\
            pc_labels pc = match l with
                           | Some la => pa_data la
                           | None => repeat 0%nat (pa2_rows d)
                           end).
  { intros d l pc. unfold fit_labels, unwrap_res, as_slice, as_slice2, py_bind.
    destruct l as [la |]; destruct_matches; intros H; try discriminate;
      injection H as <-; simpl; repeat split; congruence. }
  split; [| split].
  - intros d l s pc s' H. apply (Hpc d l pc).
    unfold Goko.fit_point_cloud in H. injection H as H _. exact H.
  - exact Hpc.
  - intros d Hl Hc l pc H.
    assert (H' : Grandma.fit_point_cloud d l = POk pc).
    { destruct H as [H | [s [s' H]]]; [exact H |].
      unfold Goko.fit_point_cloud in H. injection H as H _. exact H. }
    destruct (Hpc d l pc H') as [Hd [Hdim Hlab]].
    assert (Hlen : cloud_len pc = pa2_rows d).
    { unfold cloud_len. rewrite Hd, Hdim, Hl. apply Nat.div_mul, Hc. }
    split; [exact Hlen |].
    intros ->. rewrite Hlab, repeat_length, Hlen. reflexivity.
Qed.

(** ** Top and bottom scales *)

Lemma wrap_i32_small (z : Z) : - 2 ^ 31 <= z < 2 ^ 31 -> wrap_i32 z = z.
Proof.
  intros H. unfold wrap_i32. rewrite Z.mod_small; lia.
Qed.

(** C10: before any successful [fit] (or [PyGrandma.fit_yaml]) the object
    has no reader, so [top_scale] and [bottom_scale] are [None]: a new
    object has none, and only a successful fit stores one.  With a reader
    they are [Some (end - 1)] and [Some start] of its scale range (with
    [i32] wrapping), so [bottom <= top] when the range holds a layer. *)
Theorem C10_top_bottom_scale (env : Env) :
  top_scale None = None /\ bottom_scale None = None /\
  Goko.reader (Goko.new env) = None /\ Grandma.reader (Grandma.new env) = None /\
  (forall s c, Goko.reader s = None ->
     (forall d l, c = Goko.Fit d l -> fst (Goko.step env s c) <> POk VUnit) ->
     Goko.reader (snd (Goko.step env s c)) = None) /\
  (forall s c, Grandma.reader s = None ->
     (forall d l, c = Grandma.Fit d l -> fst (Grandma.step env s c) <> POk VUnit) ->
     (forall f, c = Grandma.FitYaml f -> fst (Grandma.step env s c) <> POk VUnit) ->
     Grandma.reader (snd (Grandma.step env s c)) = None) /\
  (forall r, top_scale (Some r) = Some (wrap_i32 (snd (scale_range r) - 1)) /\
             bottom_scale (Some r) = Some (fst (scale_range r))) /\
  (forall r, - 2 ^ 31 <= fst (scale_range r) -> fst (scale_range r) < snd (scale_range r) ->
     snd (scale_range r) <= 2 ^ 31 - 1 ->
     top_scale (Some r) = Some (snd (scale_range r) - 1) /\
     exists b t, bottom_scale (Some r) = Some b /\ top_scale (Some r) = Some t /\ b <= t).
Proof.
  split; [reflexivity |]. split; [reflexivity |].
  split; [reflexivity |]. split; [reflexivity |].
  split; [| split; [| split]].
  - intros s c Hr Hfit. destruct c; simpl; try exact Hr;
      unfold Goko.set_scale_base, Goko.set_leaf_cutoff, Goko.set_min_res_index,
        Goko.set_use_singletons, Goko.set_with, Goko.load_yaml_config;
      try (destruct_matches; simpl; exact Hr).
    specialize (Hfit data labels eq_refl).
    match goal with
    | |- context [Goko.fit env ?d ?l s] =>
        assert (Hne : fst (Goko.fit env d l s) <> POk tt)
          by (simpl in Hfit; intros He; apply Hfit; rewrite He; reflexivity);
        destruct (Goko_fit_failed_keeps env s d l Hne) as [-> _]; exact Hr
    end.
  - intros s c Hr Hfit Hyaml. destruct c; simpl; try exact Hr;
      unfold Grandma.set_scale_base, Grandma.set_cutoff, Grandma.set_resolution,
        Grandma.set_use_singletons, Grandma.set_with;
      try (destruct_matches; simpl; exact Hr).
    + specialize (Hfit data labels eq_refl).
      match goal with
      | |- context [Grandma.fit env ?d ?l s] =>
          assert (Hne : fst (Grandma.fit env d l s) <> POk tt)
            by (simpl in Hfit; intros He; apply Hfit; rewrite He; reflexivity);
          destruct (Grandma_fit_failed_keeps env s d l Hne) as [-> _]; exact Hr
      end.
    + specialize (Hyaml file_name eq_refl).
      match goal with
      | |- context [Grandma.fit_yaml env ?f s] =>
          assert (Hne : fst (Grandma.fit_yaml env f s) <> POk tt)
            by (simpl in Hyaml; intros He; apply Hyaml; rewrite He; reflexivity);
          destruct (Grandma_fit_yaml_failed_keeps env s f Hne) as [-> _]; exact Hr
      end.
  - intros r. split; reflexivity.
  - intros r H1 H2 H3. unfold top_scale, bottom_scale. simpl.
    rewrite wrap_i32_small by lia. split; [reflexivity |].
    eexists; eexists; split; [reflexivity | split; [reflexivity | lia]].
Qed.

(** * Further properties of the bindings *)

(** ** [CoverTree.fit] without an array *)

(** [fit(None, labels)] ignores [labels]: it takes the cloud stored by
    [load_yaml_config] (leaving none behind), and without one it panics
    with "No known point_cloud", leaving the object unchanged. *)
Theorem Goko_fit_without_data (env : Env) :
  (forall s l, Goko.temp_point_cloud s = None ->
     Goko.fit env None l s = (PPanic "No known point_cloud", s)) /\
  (forall s l, Goko.fit env None l s = Goko.fit env None None s) /\
  (forall s l, Goko.temp_point_cloud (snd (Goko.fit env None l s)) = None).
Proof.
  split; [| split].
  - intros s l H. unfold Goko.fit, Goko.fit_point_cloud. rewrite H. reflexivity.
  - intros s l. reflexivity.
  - intros s l. unfold Goko.fit, Goko.fit_point_cloud.
    destruct (Goko.temp_point_cloud s) eqn:Ht; simpl; [| exact Ht].
    unfold unwrap_opt, unwrap_res. destruct_matches; reflexivity.
Qed.

(** ** Conversion failures leave the object as it was *)

(** A [fit] given a non-contiguous data or label array panics while
    converting it, before taking the builder: the object is unchanged and
    a later [fit] can still use the builder. *)
Theorem fit_conversion_panic_keeps_state (env : Env) :
  (forall s d l, pa2_contiguous d = false ->
     exists m, Goko.fit env (Some d) l s = (PPanic m, s)) /\
  (forall s d la, pa_contiguous la = false ->
     exists m, Goko.fit env (Some d) (Some la) s = (PPanic m, s)) /\
  (forall s d l, pa2_contiguous d = false ->
     exists m, Grandma.fit env d l s = (PPanic m, s)) /\
  (forall s d la, pa_contiguous la = false ->
     exists m, Grandma.fit env d (Some la) s = (PPanic m, s)).
Proof.
  split; [| split; [| split]].
  - intros s d l H. unfold Goko.fit, Goko.fit_point_cloud, py_bind, as_slice2.
    rewrite H. destruct (fit_labels _ _) eqn:Hfl; simpl; eauto.
    exfalso. exact (fit_labels_no_err _ _ _ Hfl).
  - intros s d la H. unfold Goko.fit, Goko.fit_point_cloud, py_bind, fit_labels, as_slice.
    rewrite H. simpl. eauto.
  - intros s d l H. unfold Grandma.fit, Grandma.fit_point_cloud, py_bind, as_slice2.
    rewrite H. destruct (fit_labels _ _) eqn:Hfl; simpl; eauto.
    exfalso. exact (fit_labels_no_err _ _ _ Hfl).
  - intros s d la H. unfold Grandma.fit, Grandma.fit_point_cloud, py_bind, fit_labels, as_slice.
    rewrite H. simpl. eauto.
Qed.

(** ** What a successful [fit] stores *)

Lemma build_params c b pc w :
  build c b pc = Ok w ->
  w_params w = mkParams pc (b_scale_base b) (b_leaf_cutoff b)
                        (b_min_res_index b) (b_use_singletons b).
Proof.
  unfold build. destruct_matches; intros H; try discriminate.
  injection H as <-. reflexivity.
Qed.

Lemma Goko_fit_point_cloud_builder d l s :
  Goko.builder (snd (Goko.fit_point_cloud d l s)) = Goko.builder s.
Proof.
  unfold Goko.fit_point_cloud. destruct d; [reflexivity |].
  destruct (Goko.temp_point_cloud s); reflexivity.
Qed.

(** A successful [fit] stores a reader whose parameters are the cloud
    built from the call's arguments and the settings of the builder held
    before the call. *)
Lemma Goko_fit_ok_params (env : Env) s d l :
  fst (Goko.fit env d l s) = POk tt ->
  exists b pc s1 r,
    Goko.builder s = Some b /\ Goko.fit_point_cloud d l s = (POk pc, s1) /\
    Goko.reader (snd (Goko.fit env d l s)) = Some r /\
    r_params r = mkParams pc (b_scale_base b) (b_leaf_cutoff b)
                          (b_min_res_index b) (b_use_singletons b).
Proof.
  pose proof (Goko_fit_point_cloud_builder d l s) as Hb.
  unfold Goko.fit, unwrap_opt, unwrap_res.
  destruct (Goko.fit_point_cloud d l s) as [[pc | e | m] s1] eqn:Hpc; simpl;
    try discriminate.
  simpl in Hb. rewrite Hb.
  destruct (Goko.builder s) as [b |]; simpl; try discriminate.
  case_eq (build (construct env) b pc); [intros w0 Hw | intros e Hw]; simpl;
    try discriminate.
  intros _. exists b, pc, s1, (writer_reader (fit_writer w0)).
  repeat split. apply build_params in Hw. exact Hw.
Qed.

Lemma Grandma_fit_ok_params (env : Env) s d l :
  fst (Grandma.fit env d l s) = POk tt ->
  exists b pc r,
    Grandma.builder s = Some b /\ Grandma.fit_point_cloud d l = POk pc /\
    Grandma.reader (snd (Grandma.fit env d l s)) = Some r /\
    r_params r = mkParams pc (b_scale_base b) (b_leaf_cutoff b)
                          (b_min_res_index b) (b_use_singletons b).
Proof.
  unfold Grandma.fit, unwrap_opt, unwrap_res.
  destruct (Grandma.fit_point_cloud d l) as [pc | e | m]; simpl; try discriminate.
  destruct (Grandma.builder s) as [b |]; simpl; try discriminate.
  case_eq (build (construct env) b pc); [intros w0 Hw | intros e Hw]; simpl;
    try discriminate.
  intros _. exists b, pc, (writer_reader (fit_writer w0)).
  repeat split. apply build_params in Hw. exact Hw.
Qed.

Lemma fit_point_cloud_fields d l pc :
  Grandma.fit_point_cloud d l = POk pc ->
  pc_data pc = pa2_data d /\ pc_dim pc = pa2_cols d.
Proof.
  unfold Grandma.fit_point_cloud, fit_labels, unwrap_res, as_slice, as_slice2, py_bind.
  destruct_matches; intros H; try discriminate.
  all: injection H as <-; split; simpl; congruence.
Qed.

(** Row [i] of a row-major array with [cols] columns. *)
Definition row (data : list Z) (cols i : nat) : list Z :=
  firstn cols (skipn (i * cols) data).

Lemma data_point_cloud (r : Reader) (i : nat) :
  data_point (Some r) i =
    if (i <? cloud_len (point_cloud (r_params r)))%nat
    then POk (Some (row (pc_data (point_cloud (r_params r)))
                        (pc_dim (point_cloud (r_params r))) i))
    else POk None.
Proof.
  unfold data_point. simpl.
  destruct (point_cloud (r_params r)) as [data dim labels]. simpl.
  unfold cloud_point, cloud_len, row. simpl.
  destruct (i <? List.length data / dim)%nat eqn:Hi; [| reflexivity].
  apply Nat.ltb_lt in Hi.
  assert (Hd : dim <> 0%nat) by (intros ->; simpl in Hi; lia).
  assert (Hbound : (i * dim + dim <= List.length data)%nat).
  { pose proof (Nat.Div0.mul_div_le (List.length data) dim). nia. }
  unfold from_shape_vec, dense_iter.
  rewrite length_firstn, length_skipn.
  replace (Nat.min dim (List.length data - i * dim)) with dim by lia.
  rewrite Nat.eqb_refl. reflexivity.
Qed.

(** Round trip: after a successful [fit] on a well-shaped array with
    [rows] rows and [cols > 0] columns, [data_point(i)] gives back row [i]
    of the array for every [i < rows], and [None] beyond. *)
Theorem fit_data_point_roundtrip (env : Env) (d : PyArray2) (l : option (PyArray1 nat))
  (Hshape : List.length (pa2_data d) = (pa2_rows d * pa2_cols d)%nat)
  (Hcols : pa2_cols d <> 0%nat) :
  (forall s, fst (Goko.fit env (Some d) l s) = POk tt ->
     forall i, data_point (Goko.reader (snd (Goko.fit env (Some d) l s))) i =
       if (i <? pa2_rows d)%nat then POk (Some (row (pa2_data d) (pa2_cols d) i))
       else POk None) /\
  (forall s, fst (Grandma.fit env d l s) = POk tt ->
     forall i, data_point (Grandma.reader (snd (Grandma.fit env d l s))) i =
       if (i <? pa2_rows d)%nat then POk (Some (row (pa2_data d) (pa2_cols d) i))
       else POk None).
Proof.
  assert (Hlen : forall pc, Grandma.fit_point_cloud d l = POk pc ->
            pc_data pc = pa2_data d /\ pc_dim pc = pa2_cols d /\
            cloud_len pc = pa2_rows d).
  { intros pc Hpc. destruct (fit_point_cloud_fields d l pc Hpc) as [H1 H2].
    split; [exact H1 | split; [exact H2 |]].
    unfold cloud_len. rewrite H1, H2, Hshape. apply Nat.div_mul, Hcols. }
  split.
  - intros s Hok i.
    destruct (Goko_fit_ok_params env s (Some d) l Hok) as [b [pc [s1 [r [_ [Hpc [-> Hp]]]]]]].
    unfold Goko.fit_point_cloud in Hpc. injection Hpc as Hpc _.
    destruct (Hlen pc Hpc) as [H1 [H2 H3]].
    rewrite data_point_cloud, Hp. simpl. rewrite H1, H2, H3. reflexivity.
  - intros s Hok i.
    destruct (Grandma_fit_ok_params env s d l Hok) as [b [pc [r [_ [Hpc [-> Hp]]]]]].
    destruct (Hlen pc Hpc) as [H1 [H2 H3]].
    rewrite data_point_cloud, Hp. simpl. rewrite H1, H2, H3. reflexivity.
Qed.

Lemma fit_data_point_roundtrip_witness :
  List.length (pa2_data demo_data) = (pa2_rows demo_data * pa2_cols demo_data)%nat /\
  pa2_cols demo_data <> 0%nat /\
  fst (Goko.fit demo_env (Some demo_data) None (Goko.new demo_env)) = POk tt /\
  data_point (Goko.reader (snd (Goko.fit demo_env (Some demo_data) None
                                  (Goko.new demo_env)))) 1%nat = POk (Some [3; 4]).
Proof.
  assert (Hs : List.length (pa2_data demo_data) = (pa2_rows demo_data * pa2_cols demo_data)%nat)
    by reflexivity.
  assert (Hc : pa2_cols demo_data <> 0%nat) by discriminate.
  assert (Hok : fst (Goko.fit demo_env (Some demo_data) None (Goko.new demo_env)) = POk tt)
    by (vm_compute; reflexivity).
  split; [exact Hs | split; [exact Hc | split; [exact Hok |]]].
  rewrite (proj1 (fit_data_point_roundtrip demo_env demo_data None Hs Hc)
             (Goko.new demo_env) Hok 1%nat).
  reflexivity.
Defined.

(** ** Settings reach the fitted tree *)

(** The four settings made through the setters are the ones the tree of
    a following successful [fit] is built with. *)
Theorem setters_reach_fitted_tree (env : Env) (s : Goko.CoverTree)
  (x : Q) (c : nat) (m : Z) (u : bool) (d : option PyArray2)
  (l : option (PyArray1 nat)) :
  let s4 := snd (Goko.set_use_singletons u (snd (Goko.set_min_res_index m
              (snd (Goko.set_leaf_cutoff c (snd (Goko.set_scale_base x s))))))) in
  fst (Goko.fit env d l s4) = POk tt ->
  exists r, Goko.reader (snd (Goko.fit env d l s4)) = Some r /\
    scale_base (r_params r) = x /\ leaf_cutoff (r_params r) = c /\
    min_res_index (r_params r) = m /\ use_singletons (r_params r) = u.
Proof.
  intros s4 Hok.
  destruct (Goko_fit_ok_params env s4 d l Hok) as [b [pc [s1 [r [Hb [_ [Hr Hp]]]]]]].
  exists r. split; [exact Hr |]. rewrite Hp. simpl.
  unfold s4, Goko.set_use_singletons, Goko.set_min_res_index, Goko.set_leaf_cutoff,
    Goko.set_scale_base, Goko.set_with in Hb.
  destruct s as [[b0 |] t w r0 m0]; simpl in Hb; [| discriminate].
  injection Hb as <-. repeat split.
Qed.

Lemma setters_reach_fitted_tree_witness :
  fst (Goko.fit demo_env (Some demo_data) None
         (snd (Goko.set_use_singletons false (snd (Goko.set_min_res_index (-3)
            (snd (Goko.set_leaf_cutoff 4 (snd (Goko.set_scale_base (3 # 2)
               (Goko.new demo_env)))))))))) = POk tt /\
  exists r, Goko.reader (snd (Goko.fit demo_env (Some demo_data) None
         (snd (Goko.set_use_singletons false (snd (Goko.set_min_res_index (-3)
            (snd (Goko.set_leaf_cutoff 4 (snd (Goko.set_scale_base (3 # 2)
               (Goko.new demo_env))))))))))) = Some r /\
    scale_base (r_params r) = (3 # 2) /\ leaf_cutoff (r_params r) = 4%nat /\
    min_res_index (r_params r) = -3 /\ use_singletons (r_params r) = false.
Proof.
  assert (Hok : fst (Goko.fit demo_env (Some demo_data) None
         (snd (Goko.set_use_singletons false (snd (Goko.set_min_res_index (-3)
            (snd (Goko.set_leaf_cutoff 4 (snd (Goko.set_scale_base (3 # 2)
               (Goko.new demo_env)))))))))) = POk tt) by (vm_compute; reflexivity).
  split; [exact Hok |].
  exact (setters_reach_fitted_tree demo_env (Goko.new demo_env) (3 # 2) 4 (-3) false
           (Some demo_data) None Hok).
Defined.

(** ** Settings that have no effect *)

(** The metric name is stored but never used: [set_metric] never panics,
    changes nothing else, and a [fit] after it does exactly what it does
    without it (on both classes). *)
Theorem set_metric_ignored (env : Env) :
  (forall s m, Goko.set_metric m s =
     (POk tt, Goko.mkCoverTree (Goko.builder s) (Goko.temp_point_cloud s)
                (Goko.writer s) (Goko.reader s) m)) /\
  (forall s m, Grandma.set_metric m s =
     (POk tt, Grandma.mkPyGrandma (Grandma.builder s) (Grandma.writer s)
                (Grandma.reader s) m)) /\
  (forall s m d l,
     fst (Goko.fit env d l (snd (Goko.set_metric m s))) = fst (Goko.fit env d l s) /\
     snd (Goko.fit env d l (snd (Goko.set_metric m s))) =
       snd (Goko.set_metric m (snd (Goko.fit env d l s)))) /\
  (forall s m d l,
     fst (Grandma.fit env d l (snd (Grandma.set_metric m s))) = fst (Grandma.fit env d l s) /\
     snd (Grandma.fit env d l (snd (Grandma.set_metric m s))) =
       snd (Grandma.set_metric m (snd (Grandma.fit env d l s)))).
Proof.
  split; [| split; [| split]].
  - reflexivity.
  - reflexivity.
  - intros [b t w r m0] m d l.
    unfold Goko.fit, Goko.fit_point_cloud, Goko.set_metric. simpl.
    destruct d as [d |]; simpl.
    + destruct_matches; simpl; split; reflexivity.
    + destruct t; simpl; destruct_matches; simpl; split; reflexivity.
  - intros [b w r m0] m d l.
    unfold Grandma.fit, Grandma.set_metric. simpl.
    destruct_matches; simpl; split; reflexivity.
Qed.

(** [load_yaml_config] replaces the builder: when the file's cloud
    loads, the object gets that cloud and the file's builder, so any setter
    called before it has no effect; when the cloud cannot be loaded it
    panics at [unwrap] and leaves the object unchanged. *)
Theorem load_yaml_config_overrides_setters (env : Env) :
  (forall f s e, yaml_cloud env f = Err e ->
     Goko.load_yaml_config env f s = (PPanic unwrap_panic, s)) /\
  (forall f s pc, yaml_cloud env f = Ok pc ->
     fst (Goko.load_yaml_config env f s) = POk tt /\
     Goko.builder (snd (Goko.load_yaml_config env f s)) = Some (yaml_builder env f) /\
     Goko.temp_point_cloud (snd (Goko.load_yaml_config env f s)) = Some pc /\
     (forall x, Goko.load_yaml_config env f (snd (Goko.set_scale_base x s)) =
                Goko.load_yaml_config env f s) /\
     (forall x, Goko.load_yaml_config env f (snd (Goko.set_leaf_cutoff x s)) =
                Goko.load_yaml_config env f s) /\
     (forall x, Goko.load_yaml_config env f (snd (Goko.set_min_res_index x s)) =
                Goko.load_yaml_config env f s) /\
     (forall x, Goko.load_yaml_config env f (snd (Goko.set_use_singletons x s)) =
                Goko.load_yaml_config env f s)).
Proof.
  split.
  - intros f s e He. unfold Goko.load_yaml_config, unwrap_res. rewrite He. reflexivity.
  - intros f [b t w r m] pc Hpc. unfold Goko.load_yaml_config, unwrap_res. rewrite Hpc.
    split; [reflexivity | split; [reflexivity | split; [reflexivity |]]].
    unfold Goko.set_scale_base, Goko.set_leaf_cutoff, Goko.set_min_res_index,
      Goko.set_use_singletons, Goko.set_with.
    destruct b; simpl; repeat split; intros x; reflexivity.
Qed.

(** [PyGrandma.fit_yaml] builds from the configuration file alone: the
    builder held by the object (and so every earlier setter call) has no
    influence on its outcome, and it works again after a [fit]. *)
Theorem fit_yaml_ignores_builder (env : Env) :
  forall f s b,
    fst (Grandma.fit_yaml env f (Grandma.with_builder b s)) =
      fst (Grandma.fit_yaml env f s) /\
    Grandma.reader (snd (Grandma.fit_yaml env f (Grandma.with_builder b s))) =
      Grandma.reader (snd (Grandma.fit_yaml env f s)) /\
    Grandma.writer (snd (Grandma.fit_yaml env f (Grandma.with_builder b s))) =
      Grandma.writer (snd (Grandma.fit_yaml env f s)).
Proof.
  intros f s b. unfold Grandma.fit_yaml.
  destruct (unwrap_res (cover_tree_from_labeled_yaml env f)); simpl;
    repeat split; reflexivity.
Qed.

(** ** The stored reader is the writer's snapshot *)

Definition Goko_consistent (s : Goko.CoverTree) : Prop :=
  Goko.reader s = option_map writer_reader (Goko.writer s).

Definition Grandma_consistent (s : Grandma.PyGrandma) : Prop :=
  Grandma.reader s = option_map writer_reader (Grandma.writer s).

Lemma Goko_step_consistent (env : Env) s c :
  Goko_consistent s -> Goko_consistent (snd (Goko.step env s c)).
Proof.
  unfold Goko_consistent. intros H.
  destruct c; simpl; try exact H;
    unfold Goko.set_scale_base, Goko.set_leaf_cutoff, Goko.set_min_res_index,
      Goko.set_use_singletons, Goko.set_with, Goko.load_yaml_config;
    try (destruct_matches; simpl; exact H).
  match goal with
  | |- context [Goko.fit env ?d ?l s] =>
      destruct (fst (Goko.fit env d l s)) as [[] | e | m] eqn:Hf;
      [ destruct (Goko_fit_ok env s d l Hf) as [w0 [_ [_ [-> ->]]]]; reflexivity
      | destruct (Goko_fit_failed_keeps env s d l) as [-> ->]; [congruence | exact H] ..]
  end.
Qed.

Lemma Grandma_step_consistent (env : Env) s c :
  Grandma_consistent s -> Grandma_consistent (snd (Grandma.step env s c)).
Proof.
  unfold Grandma_consistent. intros H.
  destruct c; simpl; try exact H;
    unfold Grandma.set_scale_base, Grandma.set_cutoff, Grandma.set_resolution,
      Grandma.set_use_singletons, Grandma.set_with;
    try (destruct_matches; simpl; exact H).
  - match goal with
    | |- context [Grandma.fit env ?d ?l s] =>
        destruct (fst (Grandma.fit env d l s)) as [[] | e | m] eqn:Hf;
        [ destruct (Grandma_fit_ok env s d l Hf) as [w0 [_ [_ [-> ->]]]]; reflexivity
        | destruct (Grandma_fit_failed_keeps env s d l) as [-> ->]; [congruence | exact H] ..]
    end.
  - match goal with
    | |- context [Grandma.fit_yaml env ?f s] =>
        destruct (fst (Grandma.fit_yaml env f s)) as [[] | e | m] eqn:Hf;
        [ destruct (Grandma_fit_yaml_ok env s f Hf) as [w0 [_ [_ [-> ->]]]]; reflexivity
        | destruct (Grandma_fit_yaml_failed_keeps env s f) as [-> ->]; [congruence | exact H] ..]
    end.
Qed.

(** Along any sequence of calls from a new object, the stored reader is
    the snapshot of the stored writer; hence the tracker made by
    [kl_div_dirichlet] (from a fresh [writer.reader()]) is bound to the
    same snapshot as the object's reader, and [kl_div_dirichlet] panics
    exactly when no tree has been stored. *)
Theorem reader_is_writer_snapshot (env : Env) :
  (forall cs, Goko_consistent (snd (Goko.run env (Goko.new env) cs))) /\
  (forall cs, Grandma_consistent (snd (Grandma.run env (Grandma.new env) cs))) /\
  (forall reader writer pw ow size,
     reader = option_map writer_reader writer ->
     match reader with
     | Some r => exists t, kl_div_dirichlet reader writer pw ow size = POk t /\
                   tracker_tree t = r /\ tracker_reader (hkl t) = r /\
                   tracker_prior_weight (hkl t) = pw /\
                   tracker_observation_weight (hkl t) = ow /\
                   tracker_window_size (hkl t) = size
     | None => exists m, kl_div_dirichlet reader writer pw ow size = PPanic m
     end).
Proof.
  split; [| split].
  - intros cs. assert (H : Goko_consistent (Goko.new env)) by reflexivity.
    revert H. generalize (Goko.new env) as s.
    induction cs as [| c cs IH]; intros s H; simpl; [exact H |].
    destruct (Goko.step env s c) as [v s1] eqn:Hs.
    destruct (Goko.run env s1 cs) as [vs s2] eqn:Hr. simpl.
    specialize (IH s1). rewrite Hr in IH. apply IH.
    pose proof (Goko_step_consistent env s c H) as Hc. rewrite Hs in Hc. exact Hc.
  - intros cs. assert (H : Grandma_consistent (Grandma.new env)) by reflexivity.
    revert H. generalize (Grandma.new env) as s.
    induction cs as [| c cs IH]; intros s H; simpl; [exact H |].
    destruct (Grandma.step env s c) as [v s1] eqn:Hs.
    destruct (Grandma.run env s1 cs) as [vs s2] eqn:Hr. simpl.
    specialize (IH s1). rewrite Hr in IH. apply IH.
    pose proof (Grandma_step_consistent env s c H) as Hc. rewrite Hs in Hc. exact Hc.
  - intros reader writer pw ow size ->.
    destruct writer as [w |]; simpl.
    + eexists. repeat split.
    + eexists. reflexivity.
Qed.

(** ** Settings reach the fitted tree ([PyGrandma]) *)

(** The four settings made through [set_scale_base], [set_cutoff],
    [set_resolution] and [set_use_singletons] are the ones the tree of a
    following successful [fit] is built with. *)
Theorem Grandma_setters_reach_fitted_tree (env : Env) (s : Grandma.PyGrandma)
  (x : Q) (c : nat) (m : Z) (u : bool) (d : PyArray2)
  (l : option (PyArray1 nat)) :
  let s4 := snd (Grandma.set_use_singletons u (snd (Grandma.set_resolution m
              (snd (Grandma.set_cutoff c (snd (Grandma.set_scale_base x s))))))) in
  fst (Grandma.fit env d l s4) = POk tt ->
  exists r, Grandma.reader (snd (Grandma.fit env d l s4)) = Some r /\
    scale_base (r_params r) = x /\ leaf_cutoff (r_params r) = c /\
    min_res_index (r_params r) = m /\ use_singletons (r_params r) = u.
Proof.
  intros s4 Hok.
  destruct (Grandma_fit_ok_params env s4 d l Hok) as [b [pc [r [Hb [_ [Hr Hp]]]]]].
  exists r. split; [exact Hr |]. rewrite Hp. simpl.
  unfold s4, Grandma.set_use_singletons, Grandma.set_resolution, Grandma.set_cutoff,
    Grandma.set_scale_base, Grandma.set_with in Hb.
  destruct s as [[b0 |] w r0 m0]; simpl in Hb; [| discriminate].
  injection Hb as <-. repeat split.
Qed.

Lemma Grandma_setters_reach_fitted_tree_witness :
  fst (Grandma.fit demo_env demo_data None
         (snd (Grandma.set_use_singletons false (snd (Grandma.set_resolution (-3)
            (snd (Grandma.set_cutoff 4 (snd (Grandma.set_scale_base (3 # 2)
               (Grandma.new demo_env)))))))))) = POk tt /\
  exists r, Grandma.reader (snd (Grandma.fit demo_env demo_data None
         (snd (Grandma.set_use_singletons false (snd (Grandma.set_resolution (-3)
            (snd (Grandma.set_cutoff 4 (snd (Grandma.set_scale_base (3 # 2)
               (Grandma.new demo_env))))))))))) = Some r /\
    scale_base (r_params r) = (3 # 2) /\ leaf_cutoff (r_params r) = 4%nat /\
    min_res_index (r_params r) = -3 /\ use_singletons (r_params r) = false.
Proof.
  assert (Hok : fst (Grandma.fit demo_env demo_data None
         (snd (Grandma.set_use_singletons false (snd (Grandma.set_resolution (-3)
            (snd (Grandma.set_cutoff 4 (snd (Grandma.set_scale_base (3 # 2)
               (Grandma.new demo_env)))))))))) = POk tt) by (vm_compute; reflexivity).
  split; [exact Hok |].
  exact (Grandma_setters_reach_fitted_tree demo_env (Grandma.new demo_env) (3 # 2) 4 (-3) false
           demo_data None Hok).
Defined.

(** ** Loading a configuration, then fitting *)

(** After a successful [load_yaml_config(f)], [fit(None, labels)] builds
    the file's cloud with the file's builder, whatever the object held
    before and whatever the labels: on success it stores the new tree; on a
    failed build it panics, keeps the previous tree, and both the cloud and
    the builder are gone. *)
Theorem load_then_fit_uses_file (env : Env) (f : string) (pc : Cloud)
  (Hpc : yaml_cloud env f = Ok pc) :
  forall s l,
    Goko.fit env None l (snd (Goko.load_yaml_config env f s)) =
      match build (construct env) (yaml_builder env f) pc with
      | Ok w0 =>
          (POk tt, Goko.mkCoverTree None None (Some (fit_writer w0))
                     (Some (writer_reader (fit_writer w0))) (Goko.metric s))
      | Err _ =>
          (PPanic unwrap_panic,
           Goko.mkCoverTree None None (Goko.writer s) (Goko.reader s) (Goko.metric s))
      end.
Proof.
  intros [b t w r m] l.
  unfold Goko.load_yaml_config, unwrap_res. rewrite Hpc. simpl.
  unfold Goko.fit, Goko.fit_point_cloud, unwrap_opt, unwrap_res. simpl.
  destruct (build (construct env) (yaml_builder env f) pc); reflexivity.
Qed.

Lemma load_then_fit_uses_file_witness :
  yaml_cloud demo_env "good.yml" = Ok (mkCloud [0; 0; 3; 4] 2 [0; 1]%nat) /\
  Goko.fit demo_env None None
    (snd (Goko.load_yaml_config demo_env "good.yml"
            (snd (Goko.set_scale_base (1 # 2) (Goko.new demo_env))))) =
    match build flat_construct default_builder (mkCloud [0; 0; 3; 4] 2 [0; 1]%nat) with
    | Ok w0 =>
        (POk tt, Goko.mkCoverTree None None (Some (fit_writer w0))
                   (Some (writer_reader (fit_writer w0))) "DefaultLabeledCloud<L2>"%string)
    | Err _ =>
        (PPanic unwrap_panic,
         Goko.mkCoverTree None None None None "DefaultLabeledCloud<L2>"%string)
    end.
Proof.
  assert (Hpc : yaml_cloud demo_env "good.yml" = Ok (mkCloud [0; 0; 3; 4] 2 [0; 1]%nat))
    by reflexivity.
  split; [exact Hpc |].
  exact (load_then_fit_uses_file demo_env "good.yml" _ Hpc
           (snd (Goko.set_scale_base (1 # 2) (Goko.new demo_env))) None).
Defined.
